(** * Telegram MCP server: the tool registry, the API client and the
      call-tool dispatcher of [src/telegram/index.ts]

    The program is a thin adapter: a call-tool request names a tool and
    carries an argument bag; the dispatcher casts the bag, the client builds
    a [URLSearchParams] form and posts it, and the parsed answer (or the
    thrown error) is wrapped into a one-block text envelope.

    The embedding is shallow.  The part of ECMAScript the program relies on
    (property access on parsed JSON, [ToBoolean], [ToString],
    [JSON.stringify], [throw]/[try]/[catch]) is written out in module [JS];
    the network is a function of the request ([fetch]), passed to the
    client as a section variable.  The diagnostics written with
    [console.error] go to the error stream only and are left out. *)

From Stdlib Require Import String Ascii List ZArith Bool Lia.
From Stdlib Require Import DecimalString DecimalZ DecimalPos.
Import ListNotations.
Local Open Scope string_scope.

(** ** The ECMAScript fragment *)

Module JS.

(** Values produced by [JSON.parse].  [JNum] carries the integer-valued
    numbers; the object constructor lists the own properties in enumeration
    order, one entry per key. *)
Unset Elimination Schemes.
Inductive JSON : Type :=
| JNull
| JBool (b : bool)
| JNum (z : Z)
| JString (s : string)
| JArray (elements : list JSON)
| JObject (properties : list (string * JSON)).
Set Elimination Schemes.

(** Structural induction that reaches the elements of arrays and the values
    of objects. *)
Section JSON_induction.
Variable P : JSON -> Prop.
Hypothesis P_null : P JNull.
Hypothesis P_bool : forall b, P (JBool b).
Hypothesis P_num : forall z, P (JNum z).
Hypothesis P_string : forall s, P (JString s).
Hypothesis P_array : forall elements, Forall P elements -> P (JArray elements).
Hypothesis P_object :
  forall properties, Forall (fun kv => P (snd kv)) properties -> P (JObject properties).

Fixpoint JSON_ind (v : JSON) : P v :=
  match v with
  | JNull => P_null
  | JBool b => P_bool b
  | JNum z => P_num z
  | JString s => P_string s
  | JArray elements =>
      P_array elements
        ((fix each (l : list JSON) : Forall P l :=
            match l with
            | [] => Forall_nil P
            | x :: rest => Forall_cons x (JSON_ind x) (each rest)
            end) elements)
  | JObject properties =>
      P_object properties
        ((fix each (l : list (string * JSON)) : Forall (fun kv => P (snd kv)) l :=
            match l with
            | [] => Forall_nil _
            | kv :: rest => Forall_cons kv (JSON_ind (snd kv)) (each rest)
            end) properties)
  end.
End JSON_induction.

(** A value that may be [undefined] (a missing property, an omitted
    parameter). *)
Definition JSValue : Type := option JSON.
Definition undefined : JSValue := None.

(** What a [throw] carries: an instance of [Error] with its [message], or
    any other value. *)
Inductive Thrown : Type :=
| ErrorInstance (message : string)
| NonError (v : JSValue).

(** How a piece of code completes: normally, by throwing, by ending the
    process ([process.exit]), or not at all, when it awaits a promise that
    never settles. *)
Inductive completion (A : Type) : Type :=
| Normal (a : A)
| Throw (e : Thrown)
| Exit (code : Z)
| Pending.
Arguments Normal {A} a.
Arguments Throw {A} e.
Arguments Exit {A} code.
Arguments Pending {A}.

Definition bind {A B} (c : completion A) (k : A -> completion B) : completion B :=
  match c with
  | Normal a => k a
  | Throw e => Throw e
  | Exit code => Exit code
  | Pending => Pending
  end.

(** [try { body } catch (error) { handler error }]: only a throw is caught. *)
Definition try_catch {A} (body : completion A) (handler : Thrown -> completion A)
  : completion A :=
  match body with
  | Throw e => handler e
  | other => other
  end.

Declare Scope js_scope.
Delimit Scope js_scope with js.
Notation "x <- c ;; k" := (bind c (fun x => k))
  (at level 61, c at next level, right associativity) : js_scope.

(** [new TypeError(message)], an instance of [Error].  The texts used below
    are those of V8, the engine of Node.js. *)
Definition TypeError (message : string) : Thrown := ErrorInstance message.

(** *** Property access *)

Fixpoint Get (properties : list (string * JSON)) (key : string) : JSValue :=
  match properties with
  | [] => undefined
  | (k, v) :: rest => if String.eqb k key then Some v else Get rest key
  end.

Definition HasOwnProperty (properties : list (string * JSON)) (key : string) : bool :=
  match Get properties key with Some _ => true | None => false end.

(** *** ToBoolean: the truthiness tested by [if (x)], [!x] and [x ? a : b] *)

Definition ToBoolean (v : JSValue) : bool :=
  match v with
  | None => false
  | Some JNull => false
  | Some (JBool b) => b
  | Some (JNum z) => negb (Z.eqb z 0)
  | Some (JString s) => negb (String.eqb s EmptyString)
  | Some (JArray _) => true
  | Some (JObject _) => true
  end.

(** *** Number::toString, radix 10.  For an integer of magnitude below
    10^21 the result is its decimal numeral. *)
Definition NumberToString (z : Z) : string :=
  NilZero.string_of_int (Z.to_int z).

Definition MAX_SAFE_INTEGER : Z := 2 ^ 53 - 1.

Definition isSafeInteger (z : Z) : Prop :=
  (- MAX_SAFE_INTEGER <= z <= MAX_SAFE_INTEGER)%Z.

(** *** ToString, as applied by [String(v)] and by the string conversion of
    the [URLSearchParams] constructor and of [append].

    An array goes through [Array.prototype.join]: [null] elements give the
    empty string.  A parsed object has no callable property of its own, so
    one with an own [toString] key has no usable conversion
    (OrdinaryToPrimitive finds no method returning a primitive) and the
    conversion throws; every other object gives [[object Object]]. *)
Fixpoint ToString (v : JSON) : completion string :=
  match v with
  | JNull => Normal "null"
  | JBool b => Normal (if b then "true" else "false")
  | JNum z => Normal (NumberToString z)
  | JString s => Normal s
  | JArray elements =>
      (fix join (l : list JSON) : completion string :=
         match l with
         | [] => Normal EmptyString
         | x :: rest =>
             bind (match x with JNull => Normal EmptyString | _ => ToString x end)
               (fun s =>
                  match rest with
                  | [] => Normal s
                  | _ :: _ => bind (join rest) (fun t => Normal (s ++ "," ++ t))
                  end)
         end) elements
  | JObject properties =>
      if HasOwnProperty properties "toString"
      then Throw (TypeError "Cannot convert object to primitive value")
      else Normal "[object Object]"
  end.

Definition ToString_value (v : JSValue) : completion string :=
  match v with
  | None => Normal "undefined"
  | Some j => ToString j
  end.

(** *** The method call [v.toString()] *)
Definition call_toString (receiver : string) (v : JSValue) : completion string :=
  match v with
  | None =>
      Throw (TypeError "Cannot read properties of undefined (reading 'toString')")
  | Some JNull =>
      Throw (TypeError "Cannot read properties of null (reading 'toString')")
  | Some (JObject properties) =>
      if HasOwnProperty properties "toString"
      then Throw (TypeError (receiver ++ ".toString is not a function"))
      else Normal "[object Object]"
  | Some j => ToString j
  end.

(** *** JSON.stringify *)

Definition dquote : ascii := ascii_of_nat 34.
Definition backslash : ascii := ascii_of_nat 92.

Definition hex_digit (n : nat) : ascii :=
  if Nat.ltb n 10 then ascii_of_nat (48 + n) else ascii_of_nat (87 + n).

(** One code unit of a quoted string: the two-character escapes, [\u00xx]
    for the other control characters, everything else as it is. *)
Definition quote_char (c : ascii) : string :=
  let n := nat_of_ascii c in
  let esc (x : ascii) := String backslash (String x EmptyString) in
  if Nat.eqb n 8 then esc "b"%char
  else if Nat.eqb n 9 then esc "t"%char
  else if Nat.eqb n 10 then esc "n"%char
  else if Nat.eqb n 12 then esc "f"%char
  else if Nat.eqb n 13 then esc "r"%char
  else if Nat.eqb n 34 then esc dquote
  else if Nat.eqb n 92 then esc backslash
  else if Nat.ltb n 32 then
    String backslash
      (String "u" (String "0" (String "0"
        (String (hex_digit (n / 16)) (String (hex_digit (n mod 16)) EmptyString)))))
  else String c EmptyString.

Fixpoint quote_chars (s : string) : string :=
  match s with
  | EmptyString => EmptyString
  | String c rest => quote_char c ++ quote_chars rest
  end.

Definition QuoteJSONString (s : string) : string :=
  String dquote (quote_chars s ++ String dquote EmptyString).

Fixpoint JSON_stringify (v : JSON) : string :=
  match v with
  | JNull => "null"
  | JBool b => if b then "true" else "false"
  | JNum z => NumberToString z
  | JString s => QuoteJSONString s
  | JArray elements =>
      "[" ++
      (fix items (l : list JSON) : string :=
         match l with
         | [] => EmptyString
         | x :: rest =>
             JSON_stringify x ++
             match rest with [] => EmptyString | _ :: _ => "," ++ items rest end
         end) elements
      ++ "]"
  | JObject properties =>
      "{" ++
      (fix members (l : list (string * JSON)) : string :=
         match l with
         | [] => EmptyString
         | (k, x) :: rest =>
             QuoteJSONString k ++ ":" ++ JSON_stringify x ++
             match rest with [] => EmptyString | _ :: _ => "," ++ members rest end
         end) properties
      ++ "}"
  end.

(** *** URLSearchParams: the ordered list of name/value pairs *)

Definition URLSearchParams : Type := list (string * string).

(** [new URLSearchParams(record)]: every value is converted to a string. *)
Fixpoint new_URLSearchParams (init : list (string * JSValue))
  : completion URLSearchParams :=
  match init with
  | [] => Normal []
  | (k, v) :: rest =>
      bind (ToString_value v) (fun s =>
      bind (new_URLSearchParams rest) (fun params =>
      Normal ((k, s) :: params)))
  end.

(** [params.append(name, value)] *)
Definition append (params : URLSearchParams) (name : string) (value : JSValue)
  : completion URLSearchParams :=
  bind (ToString_value value) (fun s => Normal (params ++ [(name, s)])%list).

End JS.

Import JS.
Local Open Scope js_scope.

(** ** The program *)

(** [Tool]: a descriptor of the registry. *)
Module Tool.
Record t : Type := { name : string; description : string; inputSchema : JSON }.
End Tool.

(** [CallToolRequest]: [name] and [arguments] are the two fields of
    [request.params]; the argument bag is optional. *)
Module CallToolRequest.
Record t : Type := { name : string; arguments : option (list (string * JSON)) }.
End CallToolRequest.

(** The value a call-tool handler returns. *)
Record ContentBlock : Type := { type : string; text : string }.
Record CallToolResult : Type := { content : list ContentBlock }.
Record ListToolsResult : Type := { tools : list Tool.t }.

(** The tool arguments as the interfaces type them. *)
Inductive ParseMode : Type := MarkdownV2 | HTML.

Definition ParseMode_literal (m : ParseMode) : string :=
  match m with MarkdownV2 => "MarkdownV2" | HTML => "HTML" end.

Module SendMessageArguments.
Record t : Type :=
  { chat_id : string; text : string; parse_mode : option ParseMode }.
End SendMessageArguments.

Module ReactionTypeEmoji.
Record t : Type := { emoji : string }.
End ReactionTypeEmoji.

Module SetMessageReactionArguments.
Record t : Type :=
  { chat_id : string;
    message_id : Z;
    reaction : option ReactionTypeEmoji.t;
    is_big : option bool }.
End SetMessageReactionArguments.

(** The second argument of [fetch]. *)
Record RequestInit : Type := { method : string; body : URLSearchParams }.

(** What [fetch] followed by [response.json()] comes to: a rejection (a
    [TypeError] or a [SyntaxError], both instances of [Error], with its
    message), the parsed body, or nothing when the remote call hangs (there
    is no timeout). *)
Inductive FetchOutcome : Type :=
| Rejected (message : string)
| Parsed (json : JSON)
| Unsettled.

Definition await (o : FetchOutcome) : completion JSON :=
  match o with
  | Rejected message => Throw (ErrorInstance message)
  | Parsed json => Normal json
  | Unsettled => Pending
  end.

(** [JSON.stringify] of an object literal: a property whose value is
    [undefined] is left out. *)
Fixpoint defined_properties (fields : list (string * JSValue)) : list (string * JSON) :=
  match fields with
  | [] => []
  | (k, Some v) :: rest => (k, v) :: defined_properties rest
  | (_, None) :: rest => defined_properties rest
  end.

Definition JSON_stringify_literal (fields : list (string * JSValue)) : string :=
  JSON_stringify (JObject (defined_properties fields)).

Definition text_block (s : string) : ContentBlock := {| type := "text"; text := s |}.

Section Telegram.

(** The emoji table of [./types.js]. *)
Variable REACTION_EMOJIS : list string.

(** The network: the outcome of posting a form to a URL. *)
Variable fetch : string -> RequestInit -> FetchOutcome.

(** *** Tool definitions *)

Definition sendMessageTool : Tool.t :=
  {| Tool.name := "telegram_send_message";
     Tool.description := "Sends a text message";
     Tool.inputSchema :=
       JObject
         [("type", JString "object");
          ("properties",
           JObject
             [("chat_id",
               JObject
                 [("type", JString "string");
                  ("required", JBool true);
                  ("description",
                   JString "Unique identifier for the target chat or username of the target channel (in the format @channelusername)")]);
              ("text",
               JObject
                 [("type", JString "string");
                  ("description", JString "Text of the message to be sent")]);
              ("parse_mode",
               JObject
                 [("type", JString "string");
                  ("description", JString "Mode for parsing entities in the message text");
                  ("enum", JArray [JString "MarkdownV2 "; JString "HTML"])])]);
          ("required", JArray [JString "chat_id"; JString "text"])] |}.

Definition setMessageReactionTool : Tool.t :=
  {| Tool.name := "telegram_set_message_reaction";
     Tool.description := "Sets or updates a reaction to a message";
     Tool.inputSchema :=
       JObject
         [("type", JString "object");
          ("properties",
           JObject
             [("chat_id",
               JObject
                 [("type", JString "string");
                  ("description",
                   JString "Unique identifier for the target chat or username of the target channel (in the format @channelusername)")]);
              ("message_id",
               JObject
                 [("type", JString "number");
                  ("description", JString "Identifier of the target message")]);
              ("reaction",
               JObject
                 [("type", JString "object");
                  ("properties",
                   JObject
                     [("type",
                       JObject
                         [("type", JString "string");
                          ("enum", JArray [JString "emoji"])]);
                      ("emoji",
                       JObject
                         [("type", JString "string");
                          ("enum", JArray (map JString REACTION_EMOJIS))])]);
                  ("description", JString "Reaction to set")]);
              ("is_big",
               JObject
                 [("type", JString "boolean");
                  ("description",
                   JString "Pass `true` to set the reaction with a big animation")])]);
          ("required", JArray [JString "chat_id"; JString "message_id"])] |}.

(** *** class TelegramClient *)

Record TelegramClient : Type := { baseUrl : string }.

Definition new_TelegramClient (botToken : string) : TelegramClient :=
  {| baseUrl := "https://api.telegram.org/bot" ++ botToken |}.

(** The form [sendMessage] builds before it posts. *)
Definition sendMessage_params (chat_id text parseMode : JSValue)
  : completion URLSearchParams :=
  params <- new_URLSearchParams [("chat_id", chat_id); ("text", text)] ;;
  if ToBoolean parseMode
  then append params "parse_mode" parseMode
  else Normal params.

Definition sendMessage (this : TelegramClient) (chat_id text parseMode : JSValue)
  : completion JSON :=
  params <- sendMessage_params chat_id text parseMode ;;
  await (fetch (baseUrl this ++ "/sendMessage")
           {| method := "POST"; body := params |}).

(** The form [setMessageReaction] builds before it posts. *)
Definition setMessageReaction_params (chat_id message_id reaction is_big : JSValue)
  : completion URLSearchParams :=
  message_id_string <- call_toString "message_id" message_id ;;
  params <- new_URLSearchParams
              [("chat_id", chat_id);
               ("message_id", Some (JString message_id_string))] ;;
  params <- (if ToBoolean reaction
             then append params "reaction"
                    (Some (JString (JSON_stringify_literal [("reaction", reaction)])))
             else Normal params) ;;
  if ToBoolean is_big
  then append params "is_big"
         (Some (JString (if ToBoolean is_big then "True" else "False")))
  else Normal params.

Definition setMessageReaction (this : TelegramClient)
  (chat_id message_id reaction is_big : JSValue) : completion JSON :=
  params <- setMessageReaction_params chat_id message_id reaction is_big ;;
  await (fetch (baseUrl this ++ "/setMessageReaction")
           {| method := "POST"; body := params |}).

(** *** The handlers registered by [main] *)

Section Handlers.

Variable telegramClient : TelegramClient.

(** The body of the [try] block of the call-tool handler. *)
Definition CallToolRequestHandler_try (request : CallToolRequest.t)
  : completion CallToolResult :=
  match CallToolRequest.arguments request with
  | None => Throw (ErrorInstance "No arguments provided")
  | Some args =>
      let name := CallToolRequest.name request in
      if String.eqb name "telegram_send_message" then
        response <- sendMessage telegramClient
                      (Get args "chat_id") (Get args "text") (Get args "parse_mode") ;;
        Normal {| content := [text_block (JSON_stringify response)] |}
      else if String.eqb name "telegram_set_message_reaction" then
        response <- setMessageReaction telegramClient
                      (Get args "chat_id") (Get args "message_id")
                      (Get args "reaction") (Get args "is_big") ;;
        Normal {| content := [text_block (JSON_stringify response)] |}
      else Throw (ErrorInstance ("Unknown Telegram tool: " ++ name))
  end.

(** [error instanceof Error ? error.message : String(error)] *)
Definition error_message (error : Thrown) : completion string :=
  match error with
  | ErrorInstance message => Normal message
  | NonError v => ToString_value v
  end.

(** The [catch] block. *)
Definition CallToolRequestHandler_catch (error : Thrown) : completion CallToolResult :=
  message <- error_message error ;;
  Normal {| content :=
              [text_block (JSON_stringify_literal [("error", Some (JString message))])] |}.

Definition CallToolRequestHandler (request : CallToolRequest.t)
  : completion CallToolResult :=
  try_catch (CallToolRequestHandler_try request) CallToolRequestHandler_catch.

Definition ListToolsRequestHandler : completion ListToolsResult :=
  Normal {| tools := [sendMessageTool; setMessageReactionTool] |}.

End Handlers.

(** *** main: the credential check, then the two handlers are registered *)

Record Server : Type :=
  { callTool : CallToolRequest.t -> completion CallToolResult;
    listTools : completion ListToolsResult }.

Definition main (TELEGRAM_BOT_TOKEN : option string) : completion Server :=
  match TELEGRAM_BOT_TOKEN with
  | None => Exit 1
  | Some botToken =>
      if String.eqb botToken EmptyString then Exit 1
      else
        let telegramClient := new_TelegramClient botToken in
        Normal {| callTool := CallToolRequestHandler telegramClient;
                  listTools := ListToolsRequestHandler |}
  end.

End Telegram.

(** *** Well-typed argument bags: the bag a host sends for arguments that
    inhabit the interfaces *)

Definition SendMessageArguments_bag (a : SendMessageArguments.t)
  : list (string * JSON) :=
  [("chat_id", JString (SendMessageArguments.chat_id a));
   ("text", JString (SendMessageArguments.text a))]
  ++ match SendMessageArguments.parse_mode a with
     | Some m => [("parse_mode", JString (ParseMode_literal m))]
     | None => []
     end.

Definition ReactionTypeEmoji_value (r : ReactionTypeEmoji.t) : JSON :=
  JObject [("type", JString "emoji"); ("emoji", JString (ReactionTypeEmoji.emoji r))].

Definition SetMessageReactionArguments_bag (a : SetMessageReactionArguments.t)
  : list (string * JSON) :=
  [("chat_id", JString (SetMessageReactionArguments.chat_id a));
   ("message_id", JNum (SetMessageReactionArguments.message_id a))]
  ++ match SetMessageReactionArguments.reaction a with
     | Some r => [("reaction", ReactionTypeEmoji_value r)]
     | None => []
     end
  ++ match SetMessageReactionArguments.is_big a with
     | Some b => [("is_big", JBool b)]
     | None => []
     end.

(** ** Notions used in the statements *)

(** A call of the client gives the parsed body of some exchange with the
    network, or throws an [Error], or stays pending on an exchange that does
    not settle. *)
Definition answer_or_Error (fetch : string -> RequestInit -> FetchOutcome)
  (c : completion JSON) : Prop :=
  (exists url init response, fetch url init = Parsed response /\ c = Normal response)
  \/ (exists message, c = Throw (ErrorInstance message))
  \/ (exists url init, fetch url init = Unsettled /\ c = Pending).

(** Expected texts are written with an apostrophe where the text has a
    double quote. *)
Fixpoint json_text (s : string) : string :=
  match s with
  | EmptyString => EmptyString
  | String c rest =>
      String (if Ascii.eqb c "'" then dquote else c) (json_text rest)
  end.

(** The error envelope: one text block holding a serialized [{error: message}]. *)
Definition error_envelope (message : string) : CallToolResult :=
  {| content := [text_block (JSON_stringify (JObject [("error", JString message)]))] |}.

(** *** JSON Schema checks on a tool descriptor *)

Definition is_string_array (j : JSON) : bool :=
  match j with
  | JArray elements =>
      forallb (fun x => match x with JString _ => true | _ => false end) elements
  | _ => false
  end.

(** The [required] keyword of JSON Schema is an array of strings.  The check
    visits the schema and every sub-schema under [properties]. *)
Fixpoint required_well_formed (schema : JSON) : bool :=
  match schema with
  | JObject keywords =>
      match Get keywords "required" with
      | None => true
      | Some r => is_string_array r
      end
      && (fix each (l : list (string * JSON)) : bool :=
            match l with
            | [] => true
            | (k, v) :: rest =>
                (if String.eqb k "properties"
                 then match v with
                      | JObject declared =>
                          (fix sub (ps : list (string * JSON)) : bool :=
                             match ps with
                             | [] => true
                             | (_, s) :: ps' => required_well_formed s && sub ps'
                             end) declared
                      | _ => false
                      end
                 else true)
                && each rest
            end) keywords
  | _ => false
  end.

(** The schema a descriptor declares for one argument, and its [enum]. *)
Definition property_schema (tool : Tool.t) (property : string) : JSValue :=
  match Tool.inputSchema tool with
  | JObject keywords =>
      match Get keywords "properties" with
      | Some (JObject declared) => Get declared property
      | _ => undefined
      end
  | _ => undefined
  end.

Definition property_enum (tool : Tool.t) (property : string) : option (list JSON) :=
  match property_schema tool property with
  | Some (JObject keywords) =>
      match Get keywords "enum" with
      | Some (JArray values) => Some values
      | _ => None
      end
  | _ => None
  end.

(** A completion that is a normal one or the throw of an [Error] instance. *)
Definition returns_or_throws_Error {A} (c : completion A) : Prop :=
  match c with
  | Normal _ => True
  | Throw (ErrorInstance _) => True
  | Throw (NonError _) => False
  | Exit _ => False
  | Pending => False
  end.

(** *** The entry point *)

(** [main] as far as the connection of the transport: after the handlers are
    registered it awaits [server.connect(transport)], an operation of the
    protocol library, given here by its completion. *)
Definition main_connected (REACTION_EMOJIS : list string)
  (fetch : string -> RequestInit -> FetchOutcome)
  (connect : Server -> completion unit) (TELEGRAM_BOT_TOKEN : option string)
  : completion Server :=
  server <- main REACTION_EMOJIS fetch TELEGRAM_BOT_TOKEN ;;
  bind (connect server) (fun _ => Normal server).

(** The last statement of the file: [main().catch(error => process.exit(1))]. *)
Definition entry_point (REACTION_EMOJIS : list string)
  (fetch : string -> RequestInit -> FetchOutcome)
  (connect : Server -> completion unit) (TELEGRAM_BOT_TOKEN : option string)
  : completion Server :=
  try_catch (main_connected REACTION_EMOJIS fetch connect TELEGRAM_BOT_TOKEN)
    (fun error => Exit 1).

(** *** Reading a quoted character back *)

Definition hex_value (c : ascii) : option nat :=
  let n := nat_of_ascii c in
  if Nat.leb 48 n && Nat.leb n 57 then Some (n - 48)
  else if Nat.leb 97 n && Nat.leb n 102 then Some (n - 87)
  else None.

(** The character that the head of a quoted text stands for, with the rest of
    the text; nothing at the closing quote. *)
Definition unquote_char (s : string) : option (ascii * string) :=
  match s with
  | EmptyString => None
  | String c rest =>
      if Ascii.eqb c dquote then None
      else if Ascii.eqb c backslash then
        match rest with
        | EmptyString => None
        | String e rest' =>
            if Ascii.eqb e "b" then Some (ascii_of_nat 8, rest')
            else if Ascii.eqb e "t" then Some (ascii_of_nat 9, rest')
            else if Ascii.eqb e "n" then Some (ascii_of_nat 10, rest')
            else if Ascii.eqb e "f" then Some (ascii_of_nat 12, rest')
            else if Ascii.eqb e "r" then Some (ascii_of_nat 13, rest')
            else if Ascii.eqb e dquote then Some (dquote, rest')
            else if Ascii.eqb e backslash then Some (backslash, rest')
            else if Ascii.eqb e "u" then
              match rest' with
              | String _ (String _ (String h (String l rest''))) =>
                  match hex_value h, hex_value l with
                  | Some a, Some b => Some (ascii_of_nat (16 * a + b), rest'')
                  | _, _ => None
                  end
              | _ => None
              end
            else None
        end
      else Some (c, rest)
  end.

(** The answer of the handler to an exchange with the network that came to
    [o]: the parsed body wrapped, the rejection message in an error envelope,
    no answer while the exchange is unsettled. *)
Definition envelope_of (o : FetchOutcome) : completion CallToolResult :=
  match o with
  | Parsed response =>
      Normal {| content := [text_block (JSON_stringify response)] |}
  | Rejected message => Normal (error_envelope message)
  | Unsettled => Pending
  end.

(** ** Properties *)

Example stringify_sample :
  JSON_stringify (JObject [("ok", JBool true); ("n", JArray [JNum 45; JNum (-3); JNull])])
  = json_text "{'ok':true,'n':[45,-3,null]}".
Proof. reflexivity. Qed.

Example stringify_escapes :
  JSON_stringify (JString (String (ascii_of_nat 31) (String (ascii_of_nat 10) "a\")))
  = json_text "'\u001f\na\\'".
Proof. reflexivity. Qed.

Example ToString_array :
  ToString (JArray [JNum 1; JNull; JArray [JString "a"; JBool true]; JObject []])
  = Normal "1,,a,true,[object Object]".
Proof. reflexivity. Qed.

(** *** The completion monad *)

Lemma returns_or_throws_Error_inv {A} (c : completion A) :
  returns_or_throws_Error c ->
  (exists a, c = Normal a) \/ (exists message, c = Throw (ErrorInstance message)).
Proof.
  destruct c as [a | [message | v] | code | ]; simpl; intros H; try contradiction.
  - left. now exists a.
  - right. now exists message.
Qed.

Lemma bind_returns_or_throws_Error {A B} (c : completion A) (k : A -> completion B) :
  returns_or_throws_Error c ->
  (forall a, returns_or_throws_Error (k a)) ->
  returns_or_throws_Error (bind c k).
Proof.
  destruct c as [a | [message | v] | code | ]; simpl; auto.
Qed.

Lemma ToString_returns_or_throws_Error (v : JSON) :
  returns_or_throws_Error (ToString v).
Proof.
  induction v as [ | b | z | s | elements IH | properties _ ] using JSON_ind;
    simpl; try exact I.
  - induction IH as [ | x rest Hx _ IHrest ]; [ exact I | ].
    apply bind_returns_or_throws_Error.
    + destruct x; exact Hx.
    + intros s. destruct rest as [ | y rest' ]; [ exact I | ].
      apply bind_returns_or_throws_Error; [ exact IHrest | intros; exact I ].
  - destruct (HasOwnProperty properties "toString"); exact I.
Qed.

Lemma ToString_value_returns_or_throws_Error (v : JSValue) :
  returns_or_throws_Error (ToString_value v).
Proof.
  destruct v as [ j | ]; [ apply ToString_returns_or_throws_Error | exact I ].
Qed.

Lemma call_toString_returns_or_throws_Error (receiver : string) (v : JSValue) :
  returns_or_throws_Error (call_toString receiver v).
Proof.
  destruct v as [ j | ]; [ | exact I ].
  destruct j; simpl; try exact I.
  - apply (ToString_returns_or_throws_Error (JArray elements)).
  - destruct (HasOwnProperty properties "toString"); exact I.
Qed.

Lemma new_URLSearchParams_returns_or_throws_Error (init : list (string * JSValue)) :
  returns_or_throws_Error (new_URLSearchParams init).
Proof.
  induction init as [ | [k v] rest IH ]; simpl; [ exact I | ].
  apply bind_returns_or_throws_Error;
    [ apply ToString_value_returns_or_throws_Error | intros s ].
  apply bind_returns_or_throws_Error; [ exact IH | intros; exact I ].
Qed.

Lemma append_returns_or_throws_Error params name value :
  returns_or_throws_Error (append params name value).
Proof.
  apply bind_returns_or_throws_Error;
    [ apply ToString_value_returns_or_throws_Error | intros; exact I ].
Qed.


(** *** The client and the dispatcher, for any network and any client *)

Section Dispatcher.

Variable fetch : string -> RequestInit -> FetchOutcome.
Variable telegramClient : TelegramClient.

Lemma sendMessage_params_returns_or_throws_Error chat_id text parseMode :
  returns_or_throws_Error (sendMessage_params chat_id text parseMode).
Proof.
  apply bind_returns_or_throws_Error;
    [ apply new_URLSearchParams_returns_or_throws_Error | intros params ].
  destruct (ToBoolean parseMode);
    [ apply append_returns_or_throws_Error | exact I ].
Qed.

Lemma setMessageReaction_params_returns_or_throws_Error
  chat_id message_id reaction is_big :
  returns_or_throws_Error (setMessageReaction_params chat_id message_id reaction is_big).
Proof.
  apply bind_returns_or_throws_Error;
    [ apply call_toString_returns_or_throws_Error | intros s ].
  apply bind_returns_or_throws_Error;
    [ apply new_URLSearchParams_returns_or_throws_Error | intros params ].
  apply bind_returns_or_throws_Error.
  - destruct (ToBoolean reaction);
      [ apply append_returns_or_throws_Error | exact I ].
  - intros params'. destruct (ToBoolean is_big);
      [ apply append_returns_or_throws_Error | exact I ].
Qed.

Lemma post_answer_or_Error (build : completion URLSearchParams) (url : string) :
  returns_or_throws_Error build ->
  answer_or_Error fetch
    (params <- build ;; await (fetch url {| method := "POST"; body := params |})).
Proof.
  intros H. destruct (returns_or_throws_Error_inv _ H) as [[params ->] | [message ->]].
  - simpl. destruct (fetch url _) as [message | response | ] eqn:E.
    + right. left. now exists message.
    + left. exists url, {| method := "POST"; body := params |}, response. now split.
    + right. right. exists url, {| method := "POST"; body := params |}. now split.
  - right. left. now exists message.
Qed.

Lemma sendMessage_answer_or_Error chat_id text parseMode :
  answer_or_Error fetch (sendMessage fetch telegramClient chat_id text parseMode).
Proof.
  apply post_answer_or_Error, sendMessage_params_returns_or_throws_Error.
Qed.

Lemma setMessageReaction_answer_or_Error chat_id message_id reaction is_big :
  answer_or_Error fetch
    (setMessageReaction fetch telegramClient chat_id message_id reaction is_big).
Proof.
  apply post_answer_or_Error, setMessageReaction_params_returns_or_throws_Error.
Qed.

(** The [try] block returns a wrapped answer, throws an [Error], or stays
    pending on an exchange that does not settle. *)
Lemma CallToolRequestHandler_try_cases (request : CallToolRequest.t) :
  (exists url init response,
      fetch url init = Parsed response /\
      CallToolRequestHandler_try fetch telegramClient request
      = Normal {| content := [text_block (JSON_stringify response)] |})
  \/ (exists message,
         CallToolRequestHandler_try fetch telegramClient request
         = Throw (ErrorInstance message))
  \/ (exists url init,
         fetch url init = Unsettled /\
         CallToolRequestHandler_try fetch telegramClient request = Pending).
Proof.
  unfold CallToolRequestHandler_try.
  destruct (CallToolRequest.arguments request) as [args | ].
  2: { right. left. now eexists. }
  destruct (String.eqb _ "telegram_send_message").
  { destruct (sendMessage_answer_or_Error
                (Get args "chat_id") (Get args "text") (Get args "parse_mode"))
      as [(url & init & response & Hf & ->) | [(message & ->) | (url & init & Hf & ->)]].
    - left. exists url, init, response. now split.
    - right. left. now exists message.
    - right. right. exists url, init. now split. }
  destruct (String.eqb _ "telegram_set_message_reaction").
  { destruct (setMessageReaction_answer_or_Error
                (Get args "chat_id") (Get args "message_id")
                (Get args "reaction") (Get args "is_big"))
      as [(url & init & response & Hf & ->) | [(message & ->) | (url & init & Hf & ->)]].
    - left. exists url, init, response. now split.
    - right. left. now exists message.
    - right. right. exists url, init. now split. }
  right. left. now eexists.
Qed.

End Dispatcher.

(** ** The call-tool dispatcher *)

(** C1.  Whatever the [try] block throws (the missing-arguments error, the
    unknown-tool error, an error of the client), the thrown value is an
    instance of [Error]; the handler catches it and returns the envelope
    whose single text block is the serialization of [{error: message}], the
    message being that [Error]'s message, which is also what the expression
    of the [catch] block (the [Error]'s message or the thrown value as a
    string) evaluates to.  The handler completes normally: it neither
    rethrows nor ends the process. *)
Theorem thrown_errors_are_enveloped
  (fetch : string -> RequestInit -> FetchOutcome) (telegramClient : TelegramClient)
  (request : CallToolRequest.t) (error : Thrown) :
  CallToolRequestHandler_try fetch telegramClient request = Throw error ->
  exists message,
    error = ErrorInstance message /\
    error_message error = Normal message /\
    CallToolRequestHandler fetch telegramClient request
    = Normal {| content :=
                  [{| type := "text";
                      text := JSON_stringify (JObject [("error", JString message)]) |}] |}.
Proof.
  intros Hthrow. unfold CallToolRequestHandler. rewrite Hthrow. simpl.
  destruct (CallToolRequestHandler_try_cases fetch telegramClient request)
    as [(url & init & response & _ & H) | [(message & H) | (url & init & _ & H)]];
    rewrite H in Hthrow; [ discriminate | | discriminate ].
  injection Hthrow as <-. exists message. repeat split; reflexivity.
Qed.

(** A remote failure seen through the whole handler: the rejection message
    of the network comes back, as it is, in the error envelope. *)
Lemma thrown_errors_are_enveloped_witness :
  let fetch := fun (_ : string) (_ : RequestInit) => Rejected "fetch failed" in
  let telegramClient := new_TelegramClient "123:abc" in
  let request :=
    {| CallToolRequest.name := "telegram_send_message";
       CallToolRequest.arguments :=
         Some [("chat_id", JString "@chan"); ("text", JString "hi")] |} in
  CallToolRequestHandler_try fetch telegramClient request
  = Throw (ErrorInstance "fetch failed")
  /\ CallToolRequestHandler fetch telegramClient request
     = Normal {| content :=
                   [{| type := "text";
                       text := json_text "{'error':'fetch failed'}" |}] |}.
Proof.
  cbv zeta. split.
  - reflexivity.
  - destruct (thrown_errors_are_enveloped
                (fun _ _ => Rejected "fetch failed") (new_TelegramClient "123:abc")
                {| CallToolRequest.name := "telegram_send_message";
                   CallToolRequest.arguments :=
                     Some [("chat_id", JString "@chan"); ("text", JString "hi")] |}
                (ErrorInstance "fetch failed") eq_refl)
      as (message & Hinstance & _ & Hanswer).
    injection Hinstance as <-. exact Hanswer.
Defined.

(** C2.  With an argument bag present and a tool name that is neither of the
    two registered names, the handler completes normally and returns exactly
    the envelope whose text is the serialization of
    [{error: "Unknown Telegram tool: <name>"}]. *)
Theorem unknown_tool_is_enveloped
  (fetch : string -> RequestInit -> FetchOutcome) (telegramClient : TelegramClient)
  (name : string) (args : list (string * JSON)) :
  name <> "telegram_send_message" ->
  name <> "telegram_set_message_reaction" ->
  CallToolRequestHandler fetch telegramClient
    {| CallToolRequest.name := name; CallToolRequest.arguments := Some args |}
  = Normal {| content :=
                [{| type := "text";
                    text := JSON_stringify
                              (JObject [("error",
                                         JString ("Unknown Telegram tool: " ++ name))]) |}] |}.
Proof.
  intros Hsend Hreact.
  unfold CallToolRequestHandler, CallToolRequestHandler_try. cbn [CallToolRequest.arguments CallToolRequest.name].
  apply String.eqb_neq in Hsend, Hreact. rewrite Hsend, Hreact. reflexivity.
Qed.

Lemma unknown_tool_is_enveloped_witness :
  "telegram_delete_message" <> "telegram_send_message" /\
  "telegram_delete_message" <> "telegram_set_message_reaction" /\
  CallToolRequestHandler (fun _ _ => Parsed JNull) (new_TelegramClient "123:abc")
    {| CallToolRequest.name := "telegram_delete_message";
       CallToolRequest.arguments := Some [("chat_id", JString "@chan")] |}
  = Normal {| content :=
                [{| type := "text";
                    text := json_text "{'error':'Unknown Telegram tool: telegram_delete_message'}" |}] |}.
Proof.
  split; [ discriminate | split; [ discriminate | ] ].
  apply (unknown_tool_is_enveloped
           (fun _ _ => Parsed JNull) (new_TelegramClient "123:abc")
           "telegram_delete_message" [("chat_id", JString "@chan")]);
    discriminate.
Defined.

(** C3.  With no argument bag, the handler completes normally and returns an
    error envelope: one text block, the serialized object
    [{"error":"No arguments provided"}]. *)
Theorem missing_arguments_is_enveloped
  (fetch : string -> RequestInit -> FetchOutcome) (telegramClient : TelegramClient)
  (name : string) :
  CallToolRequestHandler fetch telegramClient
    {| CallToolRequest.name := name; CallToolRequest.arguments := None |}
  = Normal {| content :=
                [{| type := "text";
                    text := json_text "{'error':'No arguments provided'}" |}] |}.
Proof. reflexivity. Qed.

(** C9.  The missing-arguments check comes before the dispatch on the name:
    with no argument bag the [try] block throws "No arguments provided" for
    every tool name, the envelope carries that message, and it is not the
    unknown-tool envelope, whatever the name. *)
Theorem missing_arguments_checked_before_dispatch
  (fetch : string -> RequestInit -> FetchOutcome) (telegramClient : TelegramClient)
  (name : string) :
  let request := {| CallToolRequest.name := name; CallToolRequest.arguments := None |} in
  CallToolRequestHandler_try fetch telegramClient request
  = Throw (ErrorInstance "No arguments provided")
  /\ CallToolRequestHandler fetch telegramClient request
     = Normal (error_envelope "No arguments provided")
  /\ CallToolRequestHandler fetch telegramClient request
     <> Normal (error_envelope ("Unknown Telegram tool: " ++ name)).
Proof.
  cbv zeta. repeat split. discriminate.
Qed.

(** C8.  Every call-tool request, on the success path and on the error path
    alike, is answered by an envelope whose content is exactly one block of
    type "text"; its text is the serialization of the answer the network
    gave, or of an error object [{error: message}].  The one request that
    gets no answer is a request whose remote call never settles. *)
Theorem envelope_is_one_text_block
  (fetch : string -> RequestInit -> FetchOutcome) (telegramClient : TelegramClient)
  (request : CallToolRequest.t) :
  (exists s,
      CallToolRequestHandler fetch telegramClient request
      = Normal {| content := [{| type := "text"; text := s |}] |}
      /\ ((exists url init response,
              fetch url init = Parsed response /\ s = JSON_stringify response)
          \/ (exists message,
                 s = JSON_stringify (JObject [("error", JString message)]))))
  \/ (CallToolRequestHandler fetch telegramClient request = Pending
      /\ exists url init, fetch url init = Unsettled).
Proof.
  unfold CallToolRequestHandler.
  destruct (CallToolRequestHandler_try_cases fetch telegramClient request)
    as [(url & init & response & Hfetch & ->)
       | [(message & ->) | (url & init & Hfetch & ->)]]; simpl.
  - left. eexists. split; [ reflexivity | ]. left. now exists url, init, response.
  - left. eexists. split; [ reflexivity | ]. right. now exists message.
  - right. split; [ reflexivity | ]. now exists url, init.
Qed.

(** The success path of the scenario: the answer of the remote API to the
    posted form comes back serialized, as the single text block. *)
Lemma success_response_is_wrapped
  (fetch : string -> RequestInit -> FetchOutcome) (telegramClient : TelegramClient)
  (response : JSON) :
  fetch (baseUrl telegramClient ++ "/sendMessage")
    {| method := "POST"; body := [("chat_id", "@chan"); ("text", "hi")] |}
  = Parsed response ->
  CallToolRequestHandler fetch telegramClient
    {| CallToolRequest.name := "telegram_send_message";
       CallToolRequest.arguments :=
         Some [("chat_id", JString "@chan"); ("text", JString "hi")] |}
  = Normal {| content := [{| type := "text"; text := JSON_stringify response |}] |}.
Proof.
  intros Hfetch.
  unfold CallToolRequestHandler, CallToolRequestHandler_try, sendMessage. simpl.
  rewrite Hfetch. reflexivity.
Qed.

(** ** The API client *)

(** C4.  For arguments that inhabit [SendMessageArguments], the form built by
    [sendMessage] holds [chat_id] and [text], in that order, followed by
    [parse_mode] exactly when a parse mode was given, and nothing else; that
    form is the body posted to the [sendMessage] endpoint.  For
    [{chat_id:"@chan", text:"hi"}] the form is the two pairs chat_id=@chan
    and text=hi, without a parse_mode key. *)
Theorem sendMessage_form
  (fetch : string -> RequestInit -> FetchOutcome) (this : TelegramClient)
  (a : SendMessageArguments.t) :
  let args := SendMessageArguments_bag a in
  let form :=
    ([("chat_id", SendMessageArguments.chat_id a);
      ("text", SendMessageArguments.text a)]
     ++ match SendMessageArguments.parse_mode a with
        | Some m => [("parse_mode", ParseMode_literal m)]
        | None => []
        end)%list in
  sendMessage_params (Get args "chat_id") (Get args "text") (Get args "parse_mode")
  = Normal form
  /\ sendMessage fetch this (Get args "chat_id") (Get args "text") (Get args "parse_mode")
     = await (fetch (baseUrl this ++ "/sendMessage")
                {| method := "POST"; body := form |})
  /\ map fst form
     = ("chat_id" :: "text"
        :: match SendMessageArguments.parse_mode a with
           | Some _ => ["parse_mode"]
           | None => []
           end)%list
  /\ sendMessage_params (Some (JString "@chan")) (Some (JString "hi")) undefined
     = Normal [("chat_id", "@chan"); ("text", "hi")].
Proof.
  destruct a as [chat_id text [[ | ] | ]]; cbv zeta; repeat split; reflexivity.
Qed.



(** C6, at the input where the code departs from it.  With [is_big: false]
    present in the arguments, the form built by [setMessageReaction] has no
    [is_big] entry at all: the literal "False" is not transmitted. *)
Theorem is_big_false_is_omitted :
  let args := [("chat_id", JString "123"); ("message_id", JNum 45); ("is_big", JBool false)] in
  setMessageReaction_params
    (Get args "chat_id") (Get args "message_id") (Get args "reaction") (Get args "is_big")
  = Normal [("chat_id", "123"); ("message_id", "45")]
  /\ (let args' := [("chat_id", JString "123"); ("message_id", JNum 45); ("is_big", JBool true)] in
      setMessageReaction_params
        (Get args' "chat_id") (Get args' "message_id") (Get args' "reaction") (Get args' "is_big")
      = Normal [("chat_id", "123"); ("message_id", "45"); ("is_big", "True")]).
Proof. split; reflexivity. Qed.

(** The shape of every form [setMessageReaction] builds. *)
Lemma setMessageReaction_params_shape
  (chat_id message_id reaction is_big : JSValue) (params : URLSearchParams) :
  setMessageReaction_params chat_id message_id reaction is_big = Normal params ->
  exists chat_id_string message_id_string,
    params
    = ([("chat_id", chat_id_string); ("message_id", message_id_string)]
       ++ (if ToBoolean reaction
           then [("reaction", JSON_stringify_literal [("reaction", reaction)])]
           else [])
       ++ (if ToBoolean is_big then [("is_big", "True")] else []))%list.
Proof.
  unfold setMessageReaction_params.
  destruct (call_toString "message_id" message_id) as [ms | e | code | ];
    simpl; try discriminate.
  destruct (ToString_value chat_id) as [cs | e | code | ]; simpl; try discriminate.
  intros H. exists cs, ms.
  destruct (ToBoolean reaction); destruct (ToBoolean is_big);
    simpl in H; injection H as <-; reflexivity.
Qed.

(** C10.  Whatever the arguments of a set-reaction call, the form it builds
    never holds the pair is_big=False: an [is_big] entry, when there is one,
    has the value "True", and when [is_big] is false or absent (or falsy in
    any other way) the form has no [is_big] key. *)
Theorem is_big_False_never_sent
  (chat_id message_id reaction is_big : JSValue) (params : URLSearchParams) :
  setMessageReaction_params chat_id message_id reaction is_big = Normal params ->
  ~ In ("is_big", "False") params
  /\ (forall value, In ("is_big", value) params -> value = "True")
  /\ (ToBoolean is_big = false -> ~ In "is_big" (map fst params)).
Proof.
  intros H.
  destruct (setMessageReaction_params_shape _ _ _ _ _ H) as (cs & ms & ->).
  assert (Hvalue : forall value,
             In ("is_big", value)
               ([("chat_id", cs); ("message_id", ms)]
                ++ (if ToBoolean reaction
                    then [("reaction", JSON_stringify_literal [("reaction", reaction)])]
                    else [])
                ++ (if ToBoolean is_big then [("is_big", "True")] else []))%list ->
             ToBoolean is_big = true /\ value = "True").
  { intros value Hin.
    apply in_app_or in Hin as [[E | [E | []]] | Hin]; try discriminate E.
    apply in_app_or in Hin as [Hin | Hin].
    - destruct (ToBoolean reaction); [ | destruct Hin ].
      destruct Hin as [E | []]. discriminate E.
    - destruct (ToBoolean is_big); [ | destruct Hin ].
      destruct Hin as [E | []]. injection E as <-. now split. }
  split; [ | split ].
  - intros Hin. apply Hvalue in Hin as [_ E]. discriminate E.
  - intros value Hin. now apply Hvalue in Hin.
  - intros Hfalsy Hin. apply in_map_iff in Hin as ([k value] & Hk & Hin).
    simpl in Hk. subst k. apply Hvalue in Hin as [Htruthy _]. congruence.
Qed.

Lemma is_big_False_never_sent_witness :
  let params := [("chat_id", "123"); ("message_id", "45")] in
  setMessageReaction_params
    (Some (JString "123")) (Some (JNum 45)) undefined (Some (JBool false))
  = Normal params
  /\ ~ In ("is_big", "False") params
  /\ (forall value, In ("is_big", value) params -> value = "True")
  /\ (ToBoolean (Some (JBool false)) = false -> ~ In "is_big" (map fst params)).
Proof.
  cbv zeta. split.
  - reflexivity.
  - apply (is_big_False_never_sent
             (Some (JString "123")) (Some (JNum 45)) undefined (Some (JBool false))).
    reflexivity.
Defined.

(** ** The tool registry *)

(** C7.  The list-tools handler returns the two descriptors, named
    [telegram_send_message] and [telegram_set_message_reaction], in that
    order, and the schema of the second passes the check of its [required]
    declarations.  The schema of the first does not: its [chat_id] property
    declares [required: true], a boolean, and its [parse_mode] enumeration
    lists "MarkdownV2 " with a trailing blank, so the value "MarkdownV2" of
    [SendMessageArguments] is not among the enumerated values. *)
Theorem list_tools_registry (REACTION_EMOJIS : list string) :
  ListToolsRequestHandler REACTION_EMOJIS
  = Normal {| tools := [sendMessageTool; setMessageReactionTool REACTION_EMOJIS] |}
  /\ map Tool.name [sendMessageTool; setMessageReactionTool REACTION_EMOJIS]
     = ["telegram_send_message"; "telegram_set_message_reaction"]
  /\ required_well_formed (Tool.inputSchema (setMessageReactionTool REACTION_EMOJIS)) = true
  /\ required_well_formed (Tool.inputSchema sendMessageTool) = false
  /\ property_schema sendMessageTool "chat_id"
     = Some (JObject
               [("type", JString "string");
                ("required", JBool true);
                ("description",
                 JString "Unique identifier for the target chat or username of the target channel (in the format @channelusername)")])
  /\ property_enum sendMessageTool "parse_mode"
     = Some [JString "MarkdownV2 "; JString "HTML"]
  /\ ~ In (JString (ParseMode_literal MarkdownV2)) [JString "MarkdownV2 "; JString "HTML"].
Proof.
  repeat split. intros [E | [E | []]]; discriminate E.
Qed.

(** ** Start-up *)

(** Without a credential, or with an empty one, [main] ends the process with
    status 1; otherwise it registers the two handlers over a client whose
    base URL embeds the credential. *)
Lemma main_requires_credential
  (REACTION_EMOJIS : list string) (fetch : string -> RequestInit -> FetchOutcome) :
  main REACTION_EMOJIS fetch None = Exit 1
  /\ main REACTION_EMOJIS fetch (Some EmptyString) = Exit 1
  /\ main REACTION_EMOJIS fetch (Some "123:abc")
     = Normal {| callTool :=
                   CallToolRequestHandler fetch
                     {| baseUrl := "https://api.telegram.org/bot123:abc" |};
                 listTools := ListToolsRequestHandler REACTION_EMOJIS |}.
Proof. repeat split. Qed.

(** ** Further properties of the client *)

Lemma append_assoc (s1 s2 s3 : string) : (s1 ++ s2) ++ s3 = s1 ++ (s2 ++ s3).
Proof.
  induction s1 as [ | c s1 IH ]; simpl; [ reflexivity | now rewrite IH ].
Qed.

(** For arguments of any kind, a form built by [sendMessage] has the keys
    [chat_id] and [text], in that order, then [parse_mode] exactly when the
    parse mode is truthy; its values are the arguments converted to strings.
    An empty parse mode is dropped like an absent one, and the content of an
    argument never adds or removes a field. *)
Theorem sendMessage_params_untyped
  (chat_id text parseMode : JSValue) (params : URLSearchParams) :
  sendMessage_params chat_id text parseMode = Normal params ->
  exists chat_id_string text_string,
    ToString_value chat_id = Normal chat_id_string
    /\ ToString_value text = Normal text_string
    /\ (if ToBoolean parseMode
        then exists parse_mode_string,
               ToString_value parseMode = Normal parse_mode_string
               /\ params = [("chat_id", chat_id_string); ("text", text_string);
                            ("parse_mode", parse_mode_string)]
        else params = [("chat_id", chat_id_string); ("text", text_string)]).
Proof.
  unfold sendMessage_params. simpl.
  destruct (ToString_value chat_id) as [cs | e | code | ]; simpl; try discriminate.
  destruct (ToString_value text) as [ts | e | code | ]; simpl; try discriminate.
  intros H. exists cs, ts. repeat split.
  destruct (ToBoolean parseMode).
  - unfold append in H.
    destruct (ToString_value parseMode) as [ps | e | code | ]; simpl in H;
      try discriminate.
    injection H as <-. now exists ps.
  - now injection H as <-.
Qed.

Lemma sendMessage_params_untyped_witness :
  exists chat_id_string text_string,
    ToString_value (Some (JNum (-1001234))) = Normal chat_id_string
    /\ ToString_value (Some (JString "hi")) = Normal text_string
    /\ (if ToBoolean (Some (JString EmptyString))
        then exists parse_mode_string,
               ToString_value (Some (JString EmptyString)) = Normal parse_mode_string
               /\ [("chat_id", "-1001234"); ("text", "hi")]
                  = [("chat_id", chat_id_string); ("text", text_string);
                     ("parse_mode", parse_mode_string)]
        else [("chat_id", "-1001234"); ("text", "hi")]
             = [("chat_id", chat_id_string); ("text", text_string)]).
Proof.
  apply (sendMessage_params_untyped
           (Some (JNum (-1001234))) (Some (JString "hi")) (Some (JString EmptyString))
           [("chat_id", "-1001234"); ("text", "hi")]).
  reflexivity.
Defined.

(** Whether [setMessageReaction] builds a form depends on [chat_id] and
    [message_id] alone: if it builds one without a reaction and without
    [is_big], it builds one for every reaction and every [is_big], of any
    kind, and the first two entries are the same. *)
Theorem reaction_and_is_big_never_fail
  (chat_id message_id reaction is_big : JSValue) (params : URLSearchParams) :
  setMessageReaction_params chat_id message_id undefined undefined = Normal params ->
  exists more,
    setMessageReaction_params chat_id message_id reaction is_big
    = Normal (params ++ more)%list.
Proof.
  unfold setMessageReaction_params.
  destruct (call_toString "message_id" message_id) as [ms | e | code | ];
    simpl; try discriminate.
  destruct (ToString_value chat_id) as [cs | e | code | ]; simpl; try discriminate.
  intros [= <-].
  destruct (ToBoolean reaction); destruct (ToBoolean is_big); simpl;
    eexists; reflexivity.
Qed.

Lemma reaction_and_is_big_never_fail_witness :
  exists more,
    setMessageReaction_params (Some (JString "123")) (Some (JString "45"))
      (Some (JString "not an object")) (Some (JNum 1))
    = Normal ([("chat_id", "123"); ("message_id", "45")] ++ more)%list.
Proof.
  apply (reaction_and_is_big_never_fail
           (Some (JString "123")) (Some (JString "45"))
           (Some (JString "not an object")) (Some (JNum 1))
           [("chat_id", "123"); ("message_id", "45")]).
  reflexivity.
Defined.

(** A truthy [is_big] of any kind is sent as "True": not only [true], also a
    non-zero number or a non-empty string, the string "false" included. *)
Theorem truthy_is_big_is_sent_as_True
  (chat_id message_id reaction is_big : JSValue) (params : URLSearchParams) :
  ToBoolean is_big = true ->
  setMessageReaction_params chat_id message_id reaction is_big = Normal params ->
  In ("is_big", "True") params.
Proof.
  intros Htruthy H.
  destruct (setMessageReaction_params_shape _ _ _ _ _ H) as (cs & ms & ->).
  rewrite Htruthy. apply in_or_app. right. apply in_or_app. right. now left.
Qed.

Lemma truthy_is_big_is_sent_as_True_witness :
  In ("is_big", "True")
    [("chat_id", "123"); ("message_id", "45"); ("is_big", "True")].
Proof.
  apply (truthy_is_big_is_sent_as_True
           (Some (JString "123")) (Some (JNum 45)) undefined (Some (JString "false"))
           [("chat_id", "123"); ("message_id", "45"); ("is_big", "True")]);
    reflexivity.
Defined.

(** A reaction is forwarded without validation: whatever truthy value is
    given, an object of any shape or an emoji outside the table, the form
    carries the serialization of [{reaction: <that value>}]. *)
Theorem reaction_is_forwarded_as_given
  (chat_id message_id is_big : JSValue) (reaction : JSON) (params : URLSearchParams) :
  ToBoolean (Some reaction) = true ->
  setMessageReaction_params chat_id message_id (Some reaction) is_big = Normal params ->
  In ("reaction", JSON_stringify (JObject [("reaction", reaction)])) params.
Proof.
  intros Htruthy H.
  destruct (setMessageReaction_params_shape _ _ _ _ _ H) as (cs & ms & ->).
  rewrite Htruthy. apply in_or_app. right. apply in_or_app. left. now left.
Qed.

Lemma reaction_is_forwarded_as_given_witness :
  In ("reaction", JSON_stringify (JObject [("reaction", JObject [("emoji", JNum 1)])]))
    [("chat_id", "123"); ("message_id", "45");
     ("reaction", json_text "{'reaction':{'emoji':1}}")].
Proof.
  apply (reaction_is_forwarded_as_given
           (Some (JString "123")) (Some (JNum 45)) undefined
           (JObject [("emoji", JNum 1)])
           [("chat_id", "123"); ("message_id", "45");
            ("reaction", json_text "{'reaction':{'emoji':1}}")]);
    reflexivity.
Defined.

(** ** Further properties of the dispatcher *)

(** A set-reaction call whose [message_id] is missing or [null] is answered
    with an error envelope, and the answer is the same on every network and
    for every client: nothing is posted. *)
Theorem set_reaction_needs_message_id (args : list (string * JSON)) :
  Get args "message_id" = undefined \/ Get args "message_id" = Some JNull ->
  exists message,
    forall (fetch : string -> RequestInit -> FetchOutcome)
           (telegramClient : TelegramClient),
      CallToolRequestHandler fetch telegramClient
        {| CallToolRequest.name := "telegram_set_message_reaction";
           CallToolRequest.arguments := Some args |}
      = Normal (error_envelope message).
Proof.
  intros H.
  unfold CallToolRequestHandler, CallToolRequestHandler_try, setMessageReaction,
    setMessageReaction_params.
  cbn [CallToolRequest.name CallToolRequest.arguments]. simpl String.eqb. cbv iota.
  destruct H as [-> | ->]; eexists; intros; reflexivity.
Qed.

Lemma set_reaction_needs_message_id_witness :
  exists message,
    forall (fetch : string -> RequestInit -> FetchOutcome)
           (telegramClient : TelegramClient),
      CallToolRequestHandler fetch telegramClient
        {| CallToolRequest.name := "telegram_set_message_reaction";
           CallToolRequest.arguments :=
             Some [("chat_id", JString "123"); ("is_big", JBool true)] |}
      = Normal (error_envelope message).
Proof.
  apply (set_reaction_needs_message_id [("chat_id", JString "123"); ("is_big", JBool true)]).
  left. reflexivity.
Defined.

Lemma sendMessage_params_typed (a : SendMessageArguments.t) :
  sendMessage_params
    (Get (SendMessageArguments_bag a) "chat_id")
    (Get (SendMessageArguments_bag a) "text")
    (Get (SendMessageArguments_bag a) "parse_mode")
  = Normal
      ([("chat_id", SendMessageArguments.chat_id a);
        ("text", SendMessageArguments.text a)]
       ++ match SendMessageArguments.parse_mode a with
          | Some m => [("parse_mode", ParseMode_literal m)]
          | None => []
          end)%list.
Proof. destruct a as [chat_id text [[ | ] | ]]; reflexivity. Qed.

Lemma setMessageReaction_params_typed (a : SetMessageReactionArguments.t) :
  setMessageReaction_params
    (Get (SetMessageReactionArguments_bag a) "chat_id")
    (Get (SetMessageReactionArguments_bag a) "message_id")
    (Get (SetMessageReactionArguments_bag a) "reaction")
    (Get (SetMessageReactionArguments_bag a) "is_big")
  = Normal
      ([("chat_id", SetMessageReactionArguments.chat_id a);
        ("message_id", NumberToString (SetMessageReactionArguments.message_id a))]
       ++ match SetMessageReactionArguments.reaction a with
          | Some r =>
              [("reaction",
                JSON_stringify (JObject [("reaction", ReactionTypeEmoji_value r)]))]
          | None => []
          end
       ++ match SetMessageReactionArguments.is_big a with
          | Some true => [("is_big", "True")]
          | _ => []
          end)%list.
Proof. destruct a as [chat_id message_id [r | ] [[ | ] | ]]; reflexivity. Qed.

(** A send-message call with well-typed arguments is answered by one
    exchange: the form of the arguments is posted to the [sendMessage]
    endpoint of the client, and the answer is the parsed body serialized, the
    rejection message in an error envelope, or nothing while the exchange is
    unsettled. *)
Theorem send_message_call_end_to_end
  (fetch : string -> RequestInit -> FetchOutcome) (telegramClient : TelegramClient)
  (a : SendMessageArguments.t) :
  CallToolRequestHandler fetch telegramClient
    {| CallToolRequest.name := "telegram_send_message";
       CallToolRequest.arguments := Some (SendMessageArguments_bag a) |}
  = envelope_of
      (fetch (baseUrl telegramClient ++ "/sendMessage")
         {| method := "POST";
            body :=
              ([("chat_id", SendMessageArguments.chat_id a);
                ("text", SendMessageArguments.text a)]
               ++ match SendMessageArguments.parse_mode a with
                  | Some m => [("parse_mode", ParseMode_literal m)]
                  | None => []
                  end)%list |}).
Proof.
  unfold CallToolRequestHandler, CallToolRequestHandler_try, sendMessage.
  cbn [CallToolRequest.name CallToolRequest.arguments]. simpl String.eqb. cbv iota.
  rewrite sendMessage_params_typed. cbn [bind].
  destruct (fetch _ _); reflexivity.
Qed.

(** A set-reaction call with well-typed arguments, the message identifier in
    the safe integer range, is answered by one exchange with the
    [setMessageReaction] endpoint of the client, in the same three ways. *)
Theorem set_reaction_call_end_to_end
  (fetch : string -> RequestInit -> FetchOutcome) (telegramClient : TelegramClient)
  (a : SetMessageReactionArguments.t) :
  isSafeInteger (SetMessageReactionArguments.message_id a) ->
  CallToolRequestHandler fetch telegramClient
    {| CallToolRequest.name := "telegram_set_message_reaction";
       CallToolRequest.arguments := Some (SetMessageReactionArguments_bag a) |}
  = envelope_of
      (fetch (baseUrl telegramClient ++ "/setMessageReaction")
         {| method := "POST";
            body :=
              ([("chat_id", SetMessageReactionArguments.chat_id a);
                ("message_id",
                 NumberToString (SetMessageReactionArguments.message_id a))]
               ++ match SetMessageReactionArguments.reaction a with
                  | Some r =>
                      [("reaction",
                        JSON_stringify
                          (JObject [("reaction", ReactionTypeEmoji_value r)]))]
                  | None => []
                  end
               ++ match SetMessageReactionArguments.is_big a with
                  | Some true => [("is_big", "True")]
                  | _ => []
                  end)%list |}).
Proof.
  intros _.
  unfold CallToolRequestHandler, CallToolRequestHandler_try, setMessageReaction.
  cbn [CallToolRequest.name CallToolRequest.arguments]. simpl String.eqb. cbv iota.
  rewrite setMessageReaction_params_typed. cbn [bind].
  destruct (fetch _ _); reflexivity.
Qed.

Lemma set_reaction_call_end_to_end_witness :
  isSafeInteger 45
  /\ CallToolRequestHandler
       (fun url init =>
          if String.eqb url "https://api.telegram.org/bot123:abc/setMessageReaction"
          then Parsed (JObject [("ok", JBool true); ("result", JBool true)])
          else Rejected "fetch failed")
       (new_TelegramClient "123:abc")
       {| CallToolRequest.name := "telegram_set_message_reaction";
          CallToolRequest.arguments :=
            Some [("chat_id", JString "123"); ("message_id", JNum 45);
                  ("is_big", JBool true)] |}
     = Normal {| content := [text_block (json_text "{'ok':true,'result':true}")] |}.
Proof.
  split.
  - unfold isSafeInteger, MAX_SAFE_INTEGER. lia.
  - apply (set_reaction_call_end_to_end
             (fun url init =>
                if String.eqb url "https://api.telegram.org/bot123:abc/setMessageReaction"
                then Parsed (JObject [("ok", JBool true); ("result", JBool true)])
                else Rejected "fetch failed")
             (new_TelegramClient "123:abc")
             {| SetMessageReactionArguments.chat_id := "123";
                SetMessageReactionArguments.message_id := 45;
                SetMessageReactionArguments.reaction := None;
                SetMessageReactionArguments.is_big := Some true |}).
    unfold isSafeInteger, MAX_SAFE_INTEGER. simpl. lia.
Defined.

(** Each tool consults the network at its own endpoint only, by POST: two
    networks that agree on the POST requests to that endpoint give the same
    answer to every call of the tool, whatever the arguments. *)
Theorem tool_consults_its_endpoint_only
  (fetch1 fetch2 : string -> RequestInit -> FetchOutcome)
  (telegramClient : TelegramClient)
  (name endpoint : string) (arguments : option (list (string * JSON))) :
  In (name, endpoint)
    [("telegram_send_message", "/sendMessage");
     ("telegram_set_message_reaction", "/setMessageReaction")] ->
  (forall params,
      fetch1 (baseUrl telegramClient ++ endpoint) {| method := "POST"; body := params |}
      = fetch2 (baseUrl telegramClient ++ endpoint) {| method := "POST"; body := params |}) ->
  CallToolRequestHandler fetch1 telegramClient
    {| CallToolRequest.name := name; CallToolRequest.arguments := arguments |}
  = CallToolRequestHandler fetch2 telegramClient
      {| CallToolRequest.name := name; CallToolRequest.arguments := arguments |}.
Proof.
  intros Hin Hagree.
  destruct arguments as [args | ]; [ | reflexivity ].
  destruct Hin as [[= <- <-] | [[= <- <-] | []]];
    unfold CallToolRequestHandler, CallToolRequestHandler_try;
    cbn [CallToolRequest.name CallToolRequest.arguments]; simpl String.eqb; cbv iota.
  - unfold sendMessage.
    destruct (sendMessage_params _ _ _) as [params | e | code | ]; simpl;
      [ rewrite Hagree | .. ]; reflexivity.
  - unfold setMessageReaction.
    destruct (setMessageReaction_params _ _ _ _) as [params | e | code | ]; simpl;
      [ rewrite Hagree | .. ]; reflexivity.
Qed.

Lemma tool_consults_its_endpoint_only_witness :
  let fetch1 := fun (url : string) (_ : RequestInit) =>
    if String.eqb url "https://api.telegram.org/bot123:abc/sendMessage"
    then Parsed (JObject [("ok", JBool true)])
    else Rejected "fetch failed" in
  let fetch2 := fun (url : string) (_ : RequestInit) =>
    if String.eqb url "https://api.telegram.org/bot123:abc/sendMessage"
    then Parsed (JObject [("ok", JBool true)])
    else Unsettled in
  let request :=
    {| CallToolRequest.name := "telegram_send_message";
       CallToolRequest.arguments := Some [("chat_id", JNum 7); ("text", JNull)] |} in
  CallToolRequestHandler fetch1 (new_TelegramClient "123:abc") request
  = CallToolRequestHandler fetch2 (new_TelegramClient "123:abc") request.
Proof.
  cbv zeta.
  apply (tool_consults_its_endpoint_only
           (fun url _ =>
              if String.eqb url "https://api.telegram.org/bot123:abc/sendMessage"
              then Parsed (JObject [("ok", JBool true)])
              else Rejected "fetch failed")
           (fun url _ =>
              if String.eqb url "https://api.telegram.org/bot123:abc/sendMessage"
              then Parsed (JObject [("ok", JBool true)])
              else Unsettled)
           (new_TelegramClient "123:abc")
           "telegram_send_message" "/sendMessage"
           (Some [("chat_id", JNum 7); ("text", JNull)])).
  - left. reflexivity.
  - intros params. reflexivity.
Defined.

(** A send-message call whose bag has no [chat_id], no [text] and no
    [parse_mode] (the empty bag, for one) is not refused: the handler posts
    the text "undefined" for both fields and answers with the outcome of that
    exchange. *)
Theorem send_message_missing_fields_are_posted_as_undefined
  (fetch : string -> RequestInit -> FetchOutcome) (telegramClient : TelegramClient)
  (args : list (string * JSON)) :
  Get args "chat_id" = undefined ->
  Get args "text" = undefined ->
  Get args "parse_mode" = undefined ->
  CallToolRequestHandler fetch telegramClient
    {| CallToolRequest.name := "telegram_send_message";
       CallToolRequest.arguments := Some args |}
  = envelope_of
      (fetch (baseUrl telegramClient ++ "/sendMessage")
         {| method := "POST";
            body := [("chat_id", "undefined"); ("text", "undefined")] |}).
Proof.
  intros Hchat Htext Hmode.
  unfold CallToolRequestHandler, CallToolRequestHandler_try, sendMessage,
    sendMessage_params.
  cbn [CallToolRequest.name CallToolRequest.arguments]. simpl String.eqb. cbv iota.
  rewrite Hchat, Htext, Hmode. simpl.
  destruct (fetch _ _); reflexivity.
Qed.

Lemma send_message_missing_fields_are_posted_as_undefined_witness :
  CallToolRequestHandler
    (fun _ init =>
       Parsed (JObject [("ok", JBool false);
                        ("description", JString "Bad Request: chat not found")]))
    (new_TelegramClient "123:abc")
    {| CallToolRequest.name := "telegram_send_message";
       CallToolRequest.arguments := Some [] |}
  = Normal
      {| content :=
           [text_block
              (json_text "{'ok':false,'description':'Bad Request: chat not found'}")] |}.
Proof.
  apply (send_message_missing_fields_are_posted_as_undefined
           (fun _ init =>
              Parsed (JObject [("ok", JBool false);
                               ("description", JString "Bad Request: chat not found")]))
           (new_TelegramClient "123:abc") []);
    reflexivity.
Defined.

(** The call-tool handler never rejects and never ends the process, for any
    request, any argument bag and any network. *)
Theorem handler_never_rejects_nor_exits
  (fetch : string -> RequestInit -> FetchOutcome) (telegramClient : TelegramClient)
  (request : CallToolRequest.t) :
  (forall error, CallToolRequestHandler fetch telegramClient request <> Throw error)
  /\ (forall code, CallToolRequestHandler fetch telegramClient request <> Exit code).
Proof.
  unfold CallToolRequestHandler.
  destruct (CallToolRequestHandler_try_cases fetch telegramClient request)
    as [(url & init & response & _ & ->) | [(message & ->) | (url & init & _ & ->)]];
    split; intros x; discriminate.
Qed.

Lemma unquote_quote_char (c : ascii) (rest : string) :
  unquote_char (quote_char c ++ rest) = Some (c, rest).
Proof.
  destruct c as [[] [] [] [] [] [] [] []]; reflexivity.
Qed.

Lemma quote_chars_injective (s1 s2 rest1 rest2 : string) :
  quote_chars s1 ++ String dquote rest1 = quote_chars s2 ++ String dquote rest2 ->
  s1 = s2.
Proof.
  revert s2. induction s1 as [ | c1 s1 IH ]; intros [ | c2 s2 ]; simpl; intros H.
  - reflexivity.
  - apply (f_equal unquote_char) in H.
    rewrite append_assoc, unquote_quote_char in H. discriminate H.
  - apply (f_equal unquote_char) in H.
    rewrite append_assoc, unquote_quote_char in H. discriminate H.
  - apply (f_equal unquote_char) in H.
    rewrite !append_assoc, !unquote_quote_char in H.
    injection H as -> H. f_equal. now apply IH.
Qed.

(** The error envelope keeps the message apart: two different messages never
    give the same envelope, so the host can tell every error from every
    other by the text it receives. *)
Theorem error_envelope_keeps_the_message (message1 message2 : string) :
  message1 <> message2 ->
  CallToolRequestHandler_catch (ErrorInstance message1)
  <> CallToolRequestHandler_catch (ErrorInstance message2).
Proof.
  intros Hdiff H. apply Hdiff.
  unfold CallToolRequestHandler_catch, JSON_stringify_literal, text_block in H.
  simpl in H. injection H as H.
  unfold QuoteJSONString in H. rewrite !append_assoc in H. simpl in H.
  now apply quote_chars_injective in H.
Qed.

Lemma error_envelope_keeps_the_message_witness :
  CallToolRequestHandler_catch (ErrorInstance "No arguments provided")
  <> CallToolRequestHandler_catch (ErrorInstance "No arguments provided.").
Proof.
  apply (error_envelope_keeps_the_message
           "No arguments provided" "No arguments provided.").
  discriminate.
Defined.

(** ** Further properties of the start-up *)

(** [main] ends the process with status 1 exactly when the credential is
    missing or empty; with any other credential it registers the call-tool
    handler over a client whose base URL is the API host followed by the
    credential, and the list-tools handler. *)
Theorem main_exits_iff_no_credential
  (REACTION_EMOJIS : list string) (fetch : string -> RequestInit -> FetchOutcome)
  (TELEGRAM_BOT_TOKEN : option string) :
  ((TELEGRAM_BOT_TOKEN = None \/ TELEGRAM_BOT_TOKEN = Some EmptyString)
   /\ main REACTION_EMOJIS fetch TELEGRAM_BOT_TOKEN = Exit 1)
  \/ (exists botToken,
         TELEGRAM_BOT_TOKEN = Some botToken
         /\ botToken <> EmptyString
         /\ main REACTION_EMOJIS fetch TELEGRAM_BOT_TOKEN
            = Normal
                {| callTool :=
                     CallToolRequestHandler fetch
                       {| baseUrl := "https://api.telegram.org/bot" ++ botToken |};
                   listTools := ListToolsRequestHandler REACTION_EMOJIS |}).
Proof.
  destruct TELEGRAM_BOT_TOKEN as [botToken | ]; [ | left; split; [ now left | reflexivity ] ].
  unfold main. destruct (String.eqb_spec botToken EmptyString) as [-> | Hne].
  - left. split; [ now right | reflexivity ].
  - right. exists botToken. repeat split. exact Hne.
Qed.

(** With a credential, the server that [main] starts answers a well-typed
    send-message call by posting the form to
    [https://api.telegram.org/bot<credential>/sendMessage]. *)
Theorem started_server_posts_with_credential
  (REACTION_EMOJIS : list string) (fetch : string -> RequestInit -> FetchOutcome)
  (botToken : string) (a : SendMessageArguments.t) :
  botToken <> EmptyString ->
  exists server,
    main REACTION_EMOJIS fetch (Some botToken) = Normal server
    /\ callTool server
         {| CallToolRequest.name := "telegram_send_message";
            CallToolRequest.arguments := Some (SendMessageArguments_bag a) |}
       = envelope_of
           (fetch (("https://api.telegram.org/bot" ++ botToken) ++ "/sendMessage")
              {| method := "POST";
                 body :=
                   ([("chat_id", SendMessageArguments.chat_id a);
                     ("text", SendMessageArguments.text a)]
                    ++ match SendMessageArguments.parse_mode a with
                       | Some m => [("parse_mode", ParseMode_literal m)]
                       | None => []
                       end)%list |}).
Proof.
  intros Hne. apply String.eqb_neq in Hne.
  unfold main. rewrite Hne. eexists. split; [ reflexivity | ].
  cbn [callTool].
  unfold CallToolRequestHandler, CallToolRequestHandler_try, sendMessage.
  cbn [CallToolRequest.name CallToolRequest.arguments]. simpl String.eqb. cbv iota.
  rewrite sendMessage_params_typed. cbn [bind new_TelegramClient baseUrl].
  destruct (fetch _ _); reflexivity.
Qed.

Lemma started_server_posts_with_credential_witness :
  exists server,
    main [] (fun url init =>
               if String.eqb url "https://api.telegram.org/bot123:abc/sendMessage"
               then Parsed (JObject [("ok", JBool true)])
               else Rejected "fetch failed")
      (Some "123:abc") = Normal server
    /\ callTool server
         {| CallToolRequest.name := "telegram_send_message";
            CallToolRequest.arguments :=
              Some [("chat_id", JString "@chan"); ("text", JString "hi");
                    ("parse_mode", JString "HTML")] |}
       = Normal {| content := [text_block (json_text "{'ok':true}")] |}.
Proof.
  apply (started_server_posts_with_credential []
           (fun url init =>
              if String.eqb url "https://api.telegram.org/bot123:abc/sendMessage"
              then Parsed (JObject [("ok", JBool true)])
              else Rejected "fetch failed")
           "123:abc"
           {| SendMessageArguments.chat_id := "@chan";
              SendMessageArguments.text := "hi";
              SendMessageArguments.parse_mode := Some HTML |}).
  discriminate.
Defined.

(** When the connection of the transport fails, the process ends with status
    1, with or without a credential: the rejection of [main] is caught by the
    last statement of the file and never left unhandled. *)
Theorem startup_failure_exits
  (REACTION_EMOJIS : list string) (fetch : string -> RequestInit -> FetchOutcome)
  (connect : Server -> completion unit) (TELEGRAM_BOT_TOKEN : option string)
  (error : Thrown) :
  (forall server, connect server = Throw error) ->
  entry_point REACTION_EMOJIS fetch connect TELEGRAM_BOT_TOKEN = Exit 1.
Proof.
  intros Hconnect. unfold entry_point, main_connected, main.
  destruct TELEGRAM_BOT_TOKEN as [botToken | ]; [ | reflexivity ].
  destruct (String.eqb botToken EmptyString); [ reflexivity | ].
  cbn [bind]. rewrite Hconnect. reflexivity.
Qed.

Lemma startup_failure_exits_witness :
  entry_point [] (fun _ _ => Unsettled)
    (fun _ => Throw (ErrorInstance "write EPIPE")) (Some "123:abc")
  = Exit 1.
Proof.
  apply (startup_failure_exits [] (fun _ _ => Unsettled)
           (fun _ => Throw (ErrorInstance "write EPIPE")) (Some "123:abc")
           (ErrorInstance "write EPIPE")).
  intros server. reflexivity.
Defined.
